(** * solver_tools.py: grid, boundary and network set-up for the tedeous solver

    A shallow embedding of [src/Data-driven experiment/solver_tools.py].
    The file is glue code over two external libraries, torch and tedeous.
    Objects of those libraries are represented by what the glue code hands
    to them: a tensor by its shape and its row-major data, a tedeous
    [Conditions], [Domain], [Equation] or [Model] by the record of the calls
    made on it. *)

From Stdlib Require Import ZArith Floats Lia.
From stdpp Require Import base list strings gmap.

Set Warnings "-inexact-float".
Open Scope Z_scope.

(** ** Python side: exceptions and the objects a list may hold *)

(** A raised exception, identified by the name of its class. *)
Inductive exn : Type := Exn (cls : string).

Definition exn_class (e : exn) : string := match e with Exn c => c end.

(** The outcome of a call: a returned value or a raised exception. *)
Inductive result (A : Type) : Type :=
  | Ok (a : A)
  | Raise (e : exn).
Arguments Ok {A} a.
Arguments Raise {A} e.

#[global] Instance result_ret : MRet result := fun A a => Ok a.
#[global] Instance result_bind : MBind result := fun A B f m =>
  match m with
  | Ok a => f a
  | Raise e => Raise e
  end.

Definition returns {A} (r : result A) : bool :=
  match r with Ok _ => true | Raise _ => false end.

(** Entries of a coordinate list: Python floats (binary64), and the
    non-numeric objects [str] and [None]. *)
Inductive pyobj : Type :=
  | PyFloat (x : float)
  | PyStr (s : string)
  | PyNone.

Definition is_numeric (o : pyobj) : bool :=
  match o with PyFloat _ => true | _ => false end.

(** What iterating over the [variable_names] argument yields. A list of
    strings yields its items; a plain string yields its characters, each
    as a one-character string. *)
Inductive names : Type :=
  | NamesList (l : list string)
  | NamesStr (s : string).

Fixpoint chars (s : string) : list string :=
  match s with
  | EmptyString => []
  | String c rest => String c EmptyString :: chars rest
  end.

Definition iter_names (n : names) : list string :=
  match n with
  | NamesList l => l
  | NamesStr s => chars s
  end.

(** Python's [zip] of three iterables: stops with the shortest. *)
Fixpoint zip3 {A B C} (la : list A) (lb : list B) (lc : list C)
  : list (A * B * C) :=
  match la, lb, lc with
  | a :: la', b :: lb', c :: lc' => (a, b, c) :: zip3 la' lb' lc'
  | _, _, _ => []
  end.

(** ** torch: tensors *)

Module Torch.

(** A tensor: its shape and its elements in row-major order. *)
Record tensor (E : Type) : Type := Tensor {
  shape : list Z;
  data : list E
}.
Arguments Tensor {E} shape data.
Arguments shape {E} t.
Arguments data {E} t.

Definition numel {E} (t : tensor E) : Z := Z.of_nat (length (data t)).

Section Elements.
(** Single-precision elements and the rounding of a binary64 value to
    single precision; the rounding itself is not modelled. *)
Variable F32 : Type.
Variable to_f32 : float -> F32.

(** [torch.tensor] first follows the first element of each nesting
    level to find the sizes; a [str] met there is a sequence of
    itself without end ("too many dimensions 'str'"). *)
Definition sizes_probe (row : list pyobj) : result unit :=
  match row with
  | PyStr _ :: _ => Raise (Exn "ValueError")
  | _ => Ok ()
  end.

(** Then every element is scanned for the element type and stored. *)
Definition scalar (o : pyobj) : result F32 :=
  match o with
  | PyFloat x => Ok (to_f32 x)
  | PyStr _ => Raise (Exn "TypeError")
  | PyNone => Raise (Exn "RuntimeError")
  end.

Fixpoint scalars (row : list pyobj) : result (list F32) :=
  match row with
  | [] => Ok []
  | o :: rest =>
      x ← scalar o;
      xs ← scalars rest;
      Ok (x :: xs)
  end.

(** [torch.tensor([row])]: a one-row nested list gives shape
    [(1, len(row))]. *)
Definition tensor_of_row (row : list pyobj) : result (tensor F32) :=
  _ ← sizes_probe row;
  xs ← scalars row;
  Ok (Tensor [1; Z.of_nat (length row)] xs).

(** [Tensor.float()]: the elements are single precision already. *)
Definition float_ (t : tensor F32) : tensor F32 := t.
End Elements.

(** Rounding of a binary64 value to single precision (24-bit
    significand, exponent bound 128; to nearest, ties to even, overflow
    to infinity), the result written again as the binary64 float of the
    same value. Zeros, infinities and NaN are kept. *)
Definition to_float32 (x : float) : float :=
  match Prim2SF x with
  | S754_finite s m e => SF2Prim (binary_round 24 128 s m e)
  | _ => x
  end.

(** Size inference of [reshape]: at most one entry of the requested
    shape is [-1]; it becomes [numel / newsize] where [newsize] is the
    product of the others. *)
Definition count_infer (req : list Z) : nat :=
  length (filter (fun d => d = -1) req).

Definition newsize (req : list Z) : Z :=
  foldr Z.mul 1 (filter (fun d => d <> -1) req).

Definition infer_size (req : list Z) (n : Z) : result (list Z) :=
  if bool_decide (Exists (fun d => d < -1) req) then
    Raise (Exn "RuntimeError")
  else if bool_decide (1 < count_infer req)%nat then
    Raise (Exn "RuntimeError")
  else
    let ns := newsize req in
    let inferring := bool_decide (count_infer req = 1%nat) in
    if bool_decide (n = ns)
       || (inferring && bool_decide (0 < ns) && bool_decide (n mod ns = 0))
    then
      if inferring then
        if bool_decide (ns = 0) then Raise (Exn "RuntimeError")
        else Ok ((fun d => if bool_decide (d = -1) then n / ns else d) <$> req)
      else Ok req
    else Raise (Exn "RuntimeError").

Definition reshape {E} (t : tensor E) (req : list Z) : result (tensor E) :=
  s ← infer_size req (numel t);
  Ok (Tensor s (data t)).

End Torch.

(** [torch.nn]: the layers of a [Sequential] container. *)
Inductive layer : Type :=
  | Linear (in_features out_features : Z)
  | Tanh.

(** A hidden layer: a linear map followed by the tanh activation. *)
Definition hidden (i o : Z) : list layer := [Linear i o; Tanh].

(** Feature width after a stack of layers, when the widths chain. *)
Fixpoint out_features_of (ls : list layer) (width : Z) : option Z :=
  match ls with
  | [] => Some width
  | Linear i o :: rest =>
      if bool_decide (i = width) then out_features_of rest o else None
  | Tanh :: rest => out_features_of rest width
  end.

(** Shape of the output of one layer on an input of shape [s]: [Linear]
    acts on the last dimension, which must equal its [in_features];
    [Tanh] acts elementwise. *)
Definition layer_shape (l : layer) (s : list Z) : option (list Z) :=
  match l with
  | Tanh => Some s
  | Linear i o =>
      match reverse s with
      | w :: batch =>
          if bool_decide (w = i) then Some (reverse (o :: batch)) else None
      | [] => None
      end
  end.

(** Shape of the output of a [Sequential] container: the layers in order. *)
Fixpoint forward_shape (ls : list layer) (s : list Z) : option (list Z) :=
  match ls with
  | [] => Some s
  | l :: rest => s' ← layer_shape l s; forward_shape rest s'
  end.

(** ** tedeous: the objects the glue code builds *)

Module Tedeous.
Import Torch.

(** An entry of [Conditions.conditions_lst], as [Conditions.dirichlet(bnd,
    value)] appends it: [bnd] is the dict from variable name to location. *)
Inductive condition (A B : Type) : Type :=
  | Dirichlet (bnd : gmap string A) (value : B).
Arguments Dirichlet {A B} bnd value.

Record Conditions (A B : Type) : Type := MkConditions {
  conditions_lst : list (condition A B)
}.
Arguments MkConditions {A B} conditions_lst.
Arguments conditions_lst {A B} c.

Definition dirichlet {A B} (self : Conditions A B)
    (bnd : gmap string A) (value : B) : Conditions A B :=
  MkConditions (conditions_lst self ++ [Dirichlet bnd value]).

(** The entry one [dirichlet({var_name: arg_val}, value=func_val)] call
    appends. *)
Definition installed {A B} (t : A * B * string) : condition A B :=
  let '(arg_val, func_val, var_name) := t in
  Dirichlet {[ var_name := arg_val ]} func_val.

(** [Domain()] followed by its [variable(name, set, n_points)] calls. *)
Record domain_variable (F32 : Type) : Type := MkVariable {
  variable_name : string;
  variable_set : tensor F32;
  n_points : option Z
}.
Arguments MkVariable {F32} variable_name variable_set n_points.

Definition Domain (F32 : Type) : Type := list (domain_variable F32).

(** [Equation()] followed by its [add(eq)] calls. *)
Definition Equation (EqT : Type) : Type := list EqT.

(** The approximator handed to [Model]: the torch network, or what
    [mat_model(domain, equation)] builds from its two arguments. *)
Inductive approximator (F32 EqT : Type) : Type :=
  | Sequential (layers : list layer)
  | mat_model (d : Domain F32) (e : Equation EqT).
Arguments Sequential {F32 EqT} layers.
Arguments mat_model {F32 EqT} d e.

Record EarlyStopping : Type := MkEarlyStopping {
  eps : float;
  loss_window : Z;
  no_improvement_patience : Z;
  patience : Z;
  randomize_parameter : float;
  info_string_every : Z
}.

Record Plots : Type := MkPlots {
  save_every : Z;
  print_every : option Z;
  img_dir : string
}.

Inductive callback : Type :=
  | CbEarlyStopping (c : EarlyStopping)
  | CbPlots (p : Plots).

Record Optimizer : Type := MkOptimizer {
  optimizer_name : string;
  optimizer_params : gmap string float
}.

(** [Model(net, domain, equation, conditions)], then
    [compile(mode, lambda_operator, lambda_bound)], then
    [train(optimizer, epochs, save_model, callbacks)]. *)
Record Model (F32 EqT A B : Type) : Type := MkModel {
  net : approximator F32 EqT;
  model_domain : Domain F32;
  model_equation : Equation EqT;
  conditions : Conditions A B;
  compile_mode : string;
  lambda_operator : Z;
  lambda_bound : Z;
  optimizer : Optimizer;
  epochs : Z;
  save_model : bool;
  callbacks : list callback
}.
Arguments MkModel {F32 EqT A B}.
Arguments net {F32 EqT A B} m.
Arguments model_domain {F32 EqT A B} m.
Arguments model_equation {F32 EqT A B} m.
Arguments conditions {F32 EqT A B} m.
Arguments compile_mode {F32 EqT A B} m.
Arguments lambda_operator {F32 EqT A B} m.
Arguments lambda_bound {F32 EqT A B} m.
Arguments optimizer {F32 EqT A B} m.
Arguments epochs {F32 EqT A B} m.
Arguments save_model {F32 EqT A B} m.
Arguments callbacks {F32 EqT A B} m.

End Tedeous.

(** ** solver_tools.py *)

Module SolverTools.
Import Torch Tedeous.

Section Grid.
Context {F32 : Type} (to_f32 : float -> F32).

(** [torch.tensor([arg0]).reshape(-1, 1).float()] *)
Definition get_grid_for_solver (arg0 : list pyobj) : result (tensor F32) :=
  coord_list_train ← tensor_of_row F32 to_f32 arg0;
  column ← reshape coord_list_train [-1; 1];
  Ok (float_ F32 column).
End Grid.

(** The default of [variable_names] is the string ['y']. *)
Definition variable_names_default : names := NamesStr "y".

(** [variable_names = None] stands for a call that leaves the argument
    out. The loop appends one Dirichlet condition per zipped triple. *)
Definition set_boundary {A B} (arg_values : list A) (func_values : list B)
    (variable_names : option names) : result (Conditions A B) :=
  let variable_names := default variable_names_default variable_names in
  Ok (foldl (fun boundaries '(arg_val, func_val, var_name) =>
               dirichlet boundaries {[ var_name := arg_val ]} func_val)
            (MkConditions [])
            (zip3 arg_values func_values (iter_names variable_names))).

Definition get_nn : list layer :=
  [ Linear 1 100; Tanh;
    Linear 100 100; Tanh;
    Linear 100 100; Tanh;
    Linear 100 1 ].

(** The boundary set line 90 asks for: y(0.0) = -1. *)
Definition hardcoded_boundaries : Conditions float Z :=
  MkConditions [Dirichlet {[ "y" := 0%float ]} (-1)].

Definition training_epochs_default : Z := 10000.
Definition mode_default : string := "autograd".

Section Solution.
Context {F32 : Type} (to_f32 : float -> F32).
(** [eq] is passed through to tedeous unread. *)
Context {EqT : Type}.
(** What tedeous and torch do with the model is outside the file:
    [train] stands for [Model.train] from the state [rng] of the random
    generators and yields the trained approximator, [predict] for
    [check_device(net(grid)).reshape(-1)]. *)
Context {Rng Trained Pred : Type}.
Context (train : Rng -> Model F32 EqT float Z -> Trained).
Context (predict : Trained -> tensor F32 -> Pred).

(** Lines 87 to 107, after both grids were converted. *)
Definition solver_model (eq : EqT) (grid_training : tensor F32)
    (img_dir : string) (training_epochs : Z) (mode : string)
  : result (Model F32 EqT float Z) :=
  let domain : Domain F32 := [MkVariable "y" grid_training None] in
  boundaries ← set_boundary [0%float] [-1] None;
  let equation : Equation EqT := [eq] in
  let net :=
    if bool_decide (mode ∈ ({[ "NN"; "autograd" ]} : gset string))
    then Sequential get_nn
    else mat_model domain equation in
  let cb_es := MkEarlyStopping 1e-6 100 1000 3 1e-5 1000 in
  let cb_plots := MkPlots 1000 None img_dir in
  let optimizer := MkOptimizer "Adam" {[ "lr" := 1e-3%float ]} in
  Ok (MkModel net domain equation boundaries
              mode 1 40
              optimizer training_epochs false
              [CbEarlyStopping cb_es; CbPlots cb_plots]).

(** The model as trained by an invocation, when the invocation
    reaches the solver. *)
Definition get_solution_model (eq : EqT) (poynting_vec : list float)
    (grid_training grid_test : list pyobj) (img_dir : string)
    (training_epochs : option Z) (mode : option string)
  : result (Model F32 EqT float Z) :=
  let training_epochs := default training_epochs_default training_epochs in
  let mode := default mode_default mode in
  grid_training ← get_grid_for_solver to_f32 grid_training;
  grid_test ← get_grid_for_solver to_f32 grid_test;
  solver_model eq grid_training img_dir training_epochs mode.

Definition get_solution (rng : Rng) (eq : EqT) (poynting_vec : list float)
    (grid_training grid_test : list pyobj) (img_dir : string)
    (training_epochs : option Z) (mode : option string)
  : result (Pred * Pred) :=
  let training_epochs := default training_epochs_default training_epochs in
  let mode := default mode_default mode in
  grid_training ← get_grid_for_solver to_f32 grid_training;
  grid_test ← get_grid_for_solver to_f32 grid_test;
  model ← solver_model eq grid_training img_dir training_epochs mode;
  let net := train rng model in
  let predicted_solution_training := predict net grid_training in
  let predicted_solution_test := predict net grid_test in
  Ok (predicted_solution_training, predicted_solution_test).
End Solution.

End SolverTools.

(** ** The training loop behind [Model.train] *)

Module TrainingLoop.
Import Tedeous.

(** Python ints used as float factors; exact below 2^53. *)
Definition float_of_Z (z : Z) : float :=
  match z with
  | Z0 => 0%float
  | Zpos _ => PrimFloat.of_uint63 (Uint63.of_Z z)
  | Zneg p => (- PrimFloat.of_uint63 (Uint63.of_Z (Zpos p)))%float
  end.

(** Modelled from the spec: the loss composition of tedeous, which
    [Model.compile] configures, is not in src/. Section 4.4:
    [lambda_operator * residual_loss + lambda_bound * boundary_loss]. *)
Definition compose (lambda_operator lambda_bound : Z)
    (residual_loss boundary_loss : float) : float :=
  (float_of_Z lambda_operator * residual_loss
   + float_of_Z lambda_bound * boundary_loss)%float.

(** Modelled from the spec: the states of the training loop of
    [Model.train], which is not in src/. Section 4.5. *)
Inductive loop_state : Type :=
  | RUNNING
  | CONVERGED
  | MAX_EPOCHS_REACHED
  | STAGNATED.

Definition terminal (s : loop_state) : bool :=
  match s with RUNNING => false | _ => true end.

Section Loop.
(** The approximator's parameters and the collaborators of section 6:
    the two loss terms, the optimizer step and the random
    perturbation of a given magnitude. *)
Context {P : Type}.
Context (residual_loss boundary_loss : P -> float).
Context (optimizer_step : P -> P).
Context (perturb : float -> P -> P).
Context (lambda_operator lambda_bound : Z).
Context (es : EarlyStopping).
Context (training_epochs : Z).

(** Modelled from the spec: TrainingState (section 3) together with
    the state of EarlyStoppingPolicy (section 4.6); [patience_count]
    is the TrainingState's randomize_trigger_count. *)
Record TrainingState : Type := MkState {
  state : loop_state;
  step_count : Z;
  window : list float;
  best_loss : float;
  no_improvement_count : Z;
  patience_count : Z;
  parameters : P
}.

Definition mean (w : list float) : float :=
  (foldl PrimFloat.add 0 w / float_of_Z (Z.of_nat (length w)))%float.

(** The window keeps the last [loss_window] losses. *)
Definition push (loss : float) (w : list float) : list float :=
  let w' := w ++ [loss] in
  drop (length w' - Z.to_nat (loss_window es)) w'.

(** Modelled from the spec: [shouldStop()] of section 4.6. It returns
    the verdict (true for STOP) with the updated policy state and
    parameters. *)
Definition should_stop (s : TrainingState) : bool * TrainingState :=
  let m := mean (window s) in
  let '(best, nic) :=
    if PrimFloat.ltb (eps es) (best_loss s - m)
    then (m, 0)
    else (best_loss s, no_improvement_count s + 1) in
  let '(pc, nic, params) :=
    if bool_decide (no_improvement_patience es ≤ nic)
    then (patience_count s + 1, 0,
          perturb (randomize_parameter es) (parameters s))
    else (patience_count s, nic, parameters s) in
  (bool_decide (patience es ≤ pc),
   MkState (state s) (step_count s) (window s) best nic pc params).

(** The loss of step 1, computed by the composer of section 4.4. *)
Definition loss_at (s : TrainingState) : float :=
  compose lambda_operator lambda_bound
    (residual_loss (parameters s)) (boundary_loss (parameters s)).

Definition halt (next : loop_state) (s : TrainingState) : TrainingState :=
  MkState next (step_count s) (window s) (best_loss s)
          (no_improvement_count s) (patience_count s) (parameters s).

(** Modelled from the spec: the per-step transition of section 4.5,
    with the runtime divergence of section 7: a loss that is not finite
    aborts the loop at the current step with OptimizerDivergenceError,
    before anything is updated. Steps 4 and 5 only call the diagnostics
    sink and change no state. The bound on the epochs of step 6 is the
    guard of [run]. *)
Definition step (s : TrainingState) : result TrainingState :=
  (* 1. *)
  let loss := loss_at s in
  if PrimFloat.is_finite loss then
    (* 2. *)
    let params := optimizer_step (parameters s) in
    (* 3. *)
    let s1 := MkState (state s) (step_count s + 1) (push loss (window s))
                (best_loss s) (no_improvement_count s) (patience_count s)
                params in
    (* 6. *)
    let '(stop, s2) := should_stop s1 in
    Ok (halt (if stop then STAGNATED else RUNNING) s2)
  else Raise (Exn "OptimizerDivergenceError").

(** How the loop ends: in a terminal state, or aborted by an error that
    surfaces the last valid TrainingState (section 7). *)
Inductive outcome : Type :=
  | Finished (final : TrainingState)
  | Aborted (e : exn) (last_valid : TrainingState).

(** Modelled from the spec: the loop of section 4.5. While RUNNING it
    continues if [step_count < training_epochs] and goes to
    MAX_EPOCHS_REACHED otherwise; the test stands before every
    transition, the first one included. [fuel] bounds the number of
    transitions; [None] says the fuel ran out. *)
Fixpoint run (fuel : nat) (s : TrainingState) : option outcome :=
  if terminal (state s) then Some (Finished s)
  else if bool_decide (step_count s < training_epochs) then
    match fuel with
    | O => None
    | S fuel' =>
        match step s with
        | Ok s' => run fuel' s'
        | Raise e => Some (Aborted e s)
        end
    end
  else Some (Finished (halt MAX_EPOCHS_REACHED s)).

(** TrainingState at construction; the spec leaves the first
    [best_loss] open. *)
Definition initial (best0 : float) (p0 : P) : TrainingState :=
  MkState RUNNING 0 [] best0 0 0 p0.
End Loop.

Arguments MkState {P}.
Arguments Finished {P} final.
Arguments Aborted {P} e last_valid.
Arguments state {P} t.
Arguments step_count {P} t.
Arguments window {P} t.
Arguments best_loss {P} t.
Arguments no_improvement_count {P} t.
Arguments patience_count {P} t.
Arguments parameters {P} t.

(** The early-stopping callback among the callbacks of a model. *)
Fixpoint early_stopping_of (cbs : list callback) : option EarlyStopping :=
  match cbs with
  | [] => None
  | CbEarlyStopping c :: _ => Some c
  | CbPlots _ :: rest => early_stopping_of rest
  end.

(** [Model.train] on a configured model, as the loop of section 4.5
    under the early-stopping callback the model was given. *)
Definition train {P F32 EqT A B}
    (residual_loss boundary_loss : P -> float)
    (optimizer_step : P -> P) (perturb : float -> P -> P)
    (m : Model F32 EqT A B) (fuel : nat) (best0 : float) (p0 : P)
  : option outcome :=
  es ← early_stopping_of (callbacks m);
  run residual_loss boundary_loss optimizer_step perturb
      (lambda_operator m) (lambda_bound m) es
      (epochs m) fuel (initial best0 p0).

End TrainingLoop.

(** * Properties *)

Import Torch Tedeous SolverTools.

(** ** Helper lemmas: zipping and the boundary loop *)

Section Zip3.
Context {A B C : Type}.
Implicit Types (la : list A) (lb : list B) (lc : list C).

Lemma zip3_length la lb lc :
  length (zip3 la lb lc)
  = Nat.min (Nat.min (length la) (length lb)) (length lc).
Proof.
  revert lb lc.
  induction la as [|a la IH]; intros [|b lb] [|c lc]; simpl; try lia.
  rewrite IH. lia.
Qed.

Lemma zip3_lookup la lb lc i a b c :
  la !! i = Some a -> lb !! i = Some b -> lc !! i = Some c ->
  zip3 la lb lc !! i = Some (a, b, c).
Proof.
  revert lb lc i.
  induction la as [|a' la IH]; intros [|b' lb] [|c' lc] [|i]; simpl;
    try discriminate.
  - intros. by simplify_eq.
  - apply IH.
Qed.
End Zip3.

Section BoundaryLoop.
Context {A B : Type}.

Lemma boundary_loop (l : list (A * B * string)) (start : Conditions A B) :
  conditions_lst
    (foldl (fun boundaries '(arg_val, func_val, var_name) =>
              dirichlet boundaries {[ var_name := arg_val ]} func_val)
           start l)
  = conditions_lst start ++ (installed <$> l).
Proof.
  revert start.
  induction l as [|[[a f] v] l IH]; intros start; simpl.
  - by rewrite app_nil_r.
  - rewrite IH. simpl. by rewrite <- app_assoc.
Qed.

Lemma set_boundary_conditions (arg_values : list A) (func_values : list B)
    (variable_names : option names) :
  exists c,
    set_boundary arg_values func_values variable_names = Ok c
    /\ conditions_lst c =
         installed <$> zip3 arg_values func_values
           (iter_names (default variable_names_default variable_names)).
Proof.
  eexists. split; [reflexivity|].
  by rewrite boundary_loop.
Qed.
End BoundaryLoop.

(** ** Helper lemmas: the grid *)

Section GridFacts.
Context {F32 : Type} (to_f32 : float -> F32).

Lemma scalars_floats (xs : list float) :
  scalars F32 to_f32 (PyFloat <$> xs) = Ok (to_f32 <$> xs).
Proof.
  induction xs as [|x xs IH]; [done|].
  rewrite !fmap_cons. cbn [scalars scalar].
  rewrite IH. reflexivity.
Qed.

Lemma sizes_probe_floats (xs : list float) :
  sizes_probe (PyFloat <$> xs) = Ok ().
Proof. by destruct xs. Qed.

Lemma scalars_non_numeric (l : list pyobj) :
  Exists (fun o => is_numeric o = false) l ->
  exists e, scalars F32 to_f32 l = Raise e
            /\ (e = Exn "TypeError" \/ e = Exn "RuntimeError").
Proof.
  induction l as [|o l IH]; intros H; inversion H as [? ? Ho|? ? Hl]; subst.
  - destruct o; simpl in *; [discriminate| |]; eauto.
  - destruct o; simpl; eauto.
    destruct (IH Hl) as (e & -> & He). eauto.
Qed.

(** [reshape(-1, 1)] of [n] elements has shape [(n, 1)], for every
    [n >= 0], zero included. *)
Lemma infer_size_column (n : Z) :
  0 <= n -> infer_size [-1; 1] n = Ok [n; 1].
Proof.
  intros Hn. unfold infer_size.
  change (bool_decide (Exists (fun d => d < -1) [-1; 1])) with false.
  change (count_infer [-1; 1]) with 1%nat.
  change (newsize [-1; 1]) with 1.
  cbn [bool_decide decide_rel].
  rewrite Z.mod_1_r, Z.div_1_r.
  rewrite (bool_decide_eq_true_2 (0 = 0)) by done.
  rewrite orb_true_r.
  reflexivity.
Qed.

Lemma get_grid_for_solver_floats (xs : list float) :
  get_grid_for_solver to_f32 (PyFloat <$> xs)
  = Ok (Tensor [Z.of_nat (length xs); 1] (to_f32 <$> xs)).
Proof.
  unfold get_grid_for_solver, tensor_of_row.
  rewrite sizes_probe_floats, scalars_floats. cbn [mbind result_bind].
  unfold reshape, numel. cbn [data].
  rewrite infer_size_column by lia.
  cbn [mbind result_bind]. unfold float_.
  by rewrite !length_fmap.
Qed.
End GridFacts.

(** ** set_boundary *)

(** C1 (as stated, refuted): with two argument values, one function value
    and one variable name the lengths differ, and [set_boundary] returns a
    boundary set holding one condition; it raises no
    BoundaryLengthMismatchError. *)
Lemma set_boundary_mismatch_returns :
  length [0%float; 1%float] <> length [-1]
  /\ set_boundary [0%float; 1%float] [-1] (Some (NamesList ["y"]))
     = Ok (MkConditions [Dirichlet {[ "y" := 0%float ]} (-1)])
  /\ set_boundary [0%float; 1%float] [-1] (Some (NamesList ["y"]))
     <> Raise (Exn "BoundaryLengthMismatchError").
Proof. repeat split; [simpl; lia | discriminate]. Qed.

(** C1 (amended): for parallel lists whose lengths differ, [set_boundary]
    raises nothing; it returns the boundary set built, in order, from the
    leading triples, as many as the shortest of [arg_values],
    [func_values] and [variable_names] (given or defaulted) has entries. *)
Theorem set_boundary_mismatch_truncates {A B : Type}
    (arg_values : list A) (func_values : list B)
    (variable_names : option names) :
  length arg_values <> length func_values ->
  let name_list :=
    iter_names (default variable_names_default variable_names) in
  exists c,
    set_boundary arg_values func_values variable_names = Ok c
    /\ length (conditions_lst c)
       = Nat.min (Nat.min (length arg_values) (length func_values))
                 (length name_list)
    /\ forall i a f v,
         arg_values !! i = Some a -> func_values !! i = Some f ->
         name_list !! i = Some v ->
         conditions_lst c !! i = Some (Dirichlet {[ v := a ]} f).
Proof.
  intros _ name_list.
  destruct (set_boundary_conditions arg_values func_values variable_names)
    as (c & Hc & Hl).
  exists c. split; [exact Hc|]. rewrite Hl. fold name_list. split.
  - by rewrite length_fmap, zip3_length.
  - intros i a f v Ha Hf Hv. rewrite list_lookup_fmap.
    by rewrite (zip3_lookup _ _ _ _ _ _ _ Ha Hf Hv).
Qed.

Lemma set_boundary_mismatch_truncates_witness :
  exists c,
    set_boundary [0%float; 1%float] [-1] (Some (NamesList ["y"])) = Ok c
    /\ length (conditions_lst c) = 1%nat
    /\ forall i a f v,
         [0%float; 1%float] !! i = Some a -> [-1] !! i = Some f ->
         ["y"] !! i = Some v ->
         conditions_lst c !! i = Some (Dirichlet {[ v := a ]} f).
Proof.
  apply (set_boundary_mismatch_truncates
           [0%float; 1%float] [-1] (Some (NamesList ["y"]))).
  simpl. lia.
Defined.

(** C4: three parallel sequences of equal length N >= 1 give exactly N
    boundary conditions; the i-th is the Dirichlet condition of the i-th
    triple. *)
Theorem set_boundary_parallel {A B : Type} (N : nat)
    (arg_values : list A) (func_values : list B) (variable_names : names) :
  length arg_values = N ->
  length func_values = N ->
  length (iter_names variable_names) = N ->
  (1 <= N)%nat ->
  exists c,
    set_boundary arg_values func_values (Some variable_names) = Ok c
    /\ length (conditions_lst c) = N
    /\ forall i, (i < N)%nat ->
         exists a f v,
           arg_values !! i = Some a /\ func_values !! i = Some f
           /\ iter_names variable_names !! i = Some v
           /\ conditions_lst c !! i = Some (Dirichlet {[ v := a ]} f).
Proof.
  intros Ha Hf Hv _.
  destruct (set_boundary_conditions arg_values func_values
              (Some variable_names)) as (c & Hc & Hl).
  exists c. split; [exact Hc|]. rewrite Hl. split.
  - rewrite length_fmap, zip3_length. simpl. lia.
  - intros i Hi.
    destruct (lookup_lt_is_Some_2 arg_values i) as [a Hai]; [lia|].
    destruct (lookup_lt_is_Some_2 func_values i) as [f Hfi]; [lia|].
    destruct (lookup_lt_is_Some_2 (iter_names variable_names) i)
      as [v Hvi]; [lia|].
    exists a, f, v. repeat split; try assumption.
    rewrite list_lookup_fmap. simpl.
    by rewrite (zip3_lookup _ _ _ _ _ _ _ Hai Hfi Hvi).
Qed.

Lemma set_boundary_parallel_witness :
  exists c,
    set_boundary [0%float; 1%float] [-1; 2] (Some (NamesList ["y"; "z"]))
    = Ok c
    /\ length (conditions_lst c) = 2%nat
    /\ forall i, (i < 2)%nat ->
         exists a f v,
           [0%float; 1%float] !! i = Some a /\ [-1; 2] !! i = Some f
           /\ ["y"; "z"] !! i = Some v
           /\ conditions_lst c !! i = Some (Dirichlet {[ v := a ]} f).
Proof.
  apply (set_boundary_parallel 2
           [0%float; 1%float] [-1; 2] (NamesList ["y"; "z"]));
    simpl; lia.
Defined.

(** C9: a call that leaves [variable_names] out yields at most one
    boundary condition, whatever the lengths of the two lists: the zip
    runs over the one character of the default ['y']. *)
Theorem set_boundary_default_at_most_one {A B : Type}
    (arg_values : list A) (func_values : list B) :
  exists c,
    set_boundary arg_values func_values None = Ok c
    /\ (length (conditions_lst c) <= 1)%nat
    /\ length (conditions_lst c)
       = Nat.min (Nat.min (length arg_values) (length func_values)) 1
    /\ conditions_lst c
       = match arg_values, func_values with
         | a :: _, f :: _ => [Dirichlet {[ "y" := a ]} f]
         | _, _ => []
         end.
Proof.
  destruct (set_boundary_conditions arg_values func_values None)
    as (c & Hc & Hl).
  exists c. split; [exact Hc|]. rewrite Hl.
  destruct arg_values as [|a [|a' la]], func_values as [|f [|f' lf]];
    simpl; repeat split; first [lia | reflexivity].
Qed.

(** ** get_grid_for_solver *)

(** C2 (as stated, refuted): the empty coordinate list is converted to an
    empty tensor of shape (0, 1); no InvalidGridError is raised. *)
Lemma get_grid_for_solver_empty_returns :
  get_grid_for_solver (fun x : float => x) [] = Ok (Tensor [0; 1] [])
  /\ get_grid_for_solver (fun x : float => x) []
     <> Raise (Exn "InvalidGridError").
Proof. split; [reflexivity | discriminate]. Qed.

(** C2 (amended): for the empty coordinate sequence [get_grid_for_solver]
    returns the empty tensor of shape (0, 1); for a sequence containing a
    non-numeric entry it returns no grid and fails with the exception
    torch raises (ValueError, TypeError or RuntimeError), never with an
    InvalidGridError. *)
Theorem get_grid_for_solver_empty_or_non_numeric
    {F32 : Type} (to_f32 : float -> F32) (arg0 : list pyobj) :
  (arg0 = [] -> get_grid_for_solver to_f32 arg0 = Ok (Tensor [0; 1] []))
  /\ (Exists (fun o => is_numeric o = false) arg0 ->
      exists e,
        get_grid_for_solver to_f32 arg0 = Raise e
        /\ e ∈ [Exn "ValueError"; Exn "TypeError"; Exn "RuntimeError"]
        /\ exn_class e <> "InvalidGridError").
Proof.
  split.
  - intros ->. reflexivity.
  - intros H. unfold get_grid_for_solver, tensor_of_row.
    assert (Hcls : forall e : exn,
               e ∈ [Exn "ValueError"; Exn "TypeError"; Exn "RuntimeError"] ->
               exn_class e <> "InvalidGridError").
    { intros e He. rewrite !elem_of_cons in He.
      destruct He as [->|[->|[->|He]]]; [discriminate..|].
      by apply elem_of_nil in He. }
    destruct (scalars_non_numeric to_f32 arg0 H) as (e & He & Hcase).
    assert (Hin : e ∈ [Exn "ValueError"; Exn "TypeError"; Exn "RuntimeError"])
      by (rewrite !elem_of_cons; destruct Hcase; auto).
    destruct arg0 as [|[x|s|] rest].
    + inversion H.
    + change (sizes_probe (PyFloat x :: rest)) with (Ok ()).
      cbn [mbind result_bind]. rewrite He. cbn [mbind result_bind].
      exists e. auto.
    + exists (Exn "ValueError"). split; [reflexivity|].
      split; [rewrite !elem_of_cons; auto | discriminate].
    + change (sizes_probe (PyNone :: rest)) with (Ok ()).
      cbn [mbind result_bind]. rewrite He. cbn [mbind result_bind].
      exists e. auto.
Qed.

Lemma get_grid_for_solver_empty_or_non_numeric_witness :
  get_grid_for_solver (fun x : float => x) [] = Ok (Tensor [0; 1] [])
  /\ exists e,
       get_grid_for_solver (fun x : float => x) [PyFloat 0; PyStr "a"]
       = Raise e
       /\ e ∈ [Exn "ValueError"; Exn "TypeError"; Exn "RuntimeError"]
       /\ exn_class e <> "InvalidGridError".
Proof.
  split.
  - apply (get_grid_for_solver_empty_or_non_numeric (fun x => x) []).
    reflexivity.
  - apply (get_grid_for_solver_empty_or_non_numeric
             (fun x => x) [PyFloat 0; PyStr "a"]).
    apply Exists_cons_tl, Exists_cons_hd. reflexivity.
Defined.

(** C3 (as stated, refuted): the rows are not the input values. The
    grid is single precision, so the coordinate 0.1 comes back as
    0.10000000149011612 and the coordinate 1e39 as infinity. *)
Lemma get_grid_for_solver_narrows :
  get_grid_for_solver to_float32 [PyFloat 0.1; PyFloat 1e39]
  = Ok (Tensor [2; 1] [0.10000000149011612%float; infinity])
  /\ [0.10000000149011612%float; infinity] <> [0.1%float; 1e39%float]
  /\ PrimFloat.eqb 0.10000000149011612 0.1 = false
  /\ PrimFloat.eqb infinity 1e39 = false.
Proof.
  split; [by vm_compute|]. split; [|split; by vm_compute].
  intros H.
  apply (f_equal (fun l => match l with
                           | x :: _ => PrimFloat.eqb x 0.1
                           | [] => true
                           end)) in H.
  vm_compute in H. discriminate.
Qed.

(** C3 (amended): a non-empty sequence of N floats is turned into a
    single-precision tensor of shape (N, 1) whose i-th row is the i-th
    input rounded to single precision, in the order of the input; a row
    is the input value itself exactly when that value is representable
    in single precision. *)
Theorem get_grid_for_solver_column_float32 (N : nat) (coords : list float) :
  length coords = N ->
  (1 <= N)%nat ->
  exists grid,
    get_grid_for_solver to_float32 (PyFloat <$> coords) = Ok grid
    /\ shape grid = [Z.of_nat N; 1]
    /\ length (data grid) = N
    /\ forall i x, coords !! i = Some x ->
         data grid !! i = Some (to_float32 x)
         /\ (data grid !! i = Some x <-> to_float32 x = x).
Proof.
  intros HN _. eexists. split; [apply get_grid_for_solver_floats|].
  cbn [shape data]. rewrite HN, length_fmap.
  repeat split; try done.
  - by rewrite list_lookup_fmap, H.
  - rewrite list_lookup_fmap, H. cbn. by intros [= ->].
  - rewrite list_lookup_fmap, H. cbn. by intros ->.
Qed.

Lemma get_grid_for_solver_column_float32_witness :
  exists grid,
    get_grid_for_solver to_float32
      (PyFloat <$> [0%float; 0.5%float; 0.1%float]) = Ok grid
    /\ shape grid = [3; 1]
    /\ length (data grid) = 3%nat
    /\ forall i x, [0%float; 0.5%float; 0.1%float] !! i = Some x ->
         data grid !! i = Some (to_float32 x)
         /\ (data grid !! i = Some x <-> to_float32 x = x).
Proof.
  apply (get_grid_for_solver_column_float32 3
           [0%float; 0.5%float; 0.1%float]).
  - reflexivity.
  - lia.
Defined.

(** ** get_solution *)

Section SolutionFacts.
Context {F32 : Type} (to_f32 : float -> F32) {EqT : Type}.

Lemma solver_model_eq (eq : EqT) (grid : tensor F32) (img_dir : string)
    (training_epochs : Z) (mode : string) :
  solver_model eq grid img_dir training_epochs mode
  = Ok (MkModel
          (if bool_decide (mode ∈ ({[ "NN"; "autograd" ]} : gset string))
           then Sequential get_nn
           else mat_model [MkVariable "y" grid None] [eq])
          [MkVariable "y" grid None] [eq] hardcoded_boundaries
          mode 1 40
          (MkOptimizer "Adam" {[ "lr" := 1e-3%float ]})
          training_epochs false
          [CbEarlyStopping (MkEarlyStopping 1e-6 100 1000 3 1e-5 1000);
           CbPlots (MkPlots 1000 None img_dir)]).
Proof. reflexivity. Qed.

(** A model exists exactly when both grids were converted; it is then
    the one [solver_model] builds on the training grid. *)
Lemma get_solution_model_inv (eq : EqT) (poynting_vec : list float)
    (grid_training grid_test : list pyobj) (img_dir : string)
    (training_epochs : option Z) (mode : option string) m :
  get_solution_model to_f32 eq poynting_vec grid_training grid_test
    img_dir training_epochs mode = Ok m ->
  exists g_training g_test,
    get_grid_for_solver to_f32 grid_training = Ok g_training
    /\ get_grid_for_solver to_f32 grid_test = Ok g_test
    /\ solver_model eq g_training img_dir
         (default training_epochs_default training_epochs)
         (default mode_default mode) = Ok m.
Proof.
  unfold get_solution_model.
  destruct (get_grid_for_solver to_f32 grid_training) as [g1|e1];
    cbn [mbind result_bind]; [|discriminate].
  destruct (get_grid_for_solver to_f32 grid_test) as [g2|e2];
    cbn [mbind result_bind]; [|discriminate].
  intros H. by exists g1, g2.
Qed.

Lemma get_solution_model_floats (eq : EqT) (poynting_vec : list float)
    (grid_training grid_test : list float) (img_dir : string)
    (training_epochs : option Z) (mode : option string) :
  returns (get_solution_model to_f32 eq poynting_vec
             (PyFloat <$> grid_training) (PyFloat <$> grid_test)
             img_dir training_epochs mode) = true.
Proof.
  unfold get_solution_model.
  rewrite !get_grid_for_solver_floats. cbn [mbind result_bind].
  by rewrite solver_model_eq.
Qed.

(** [get_solution] returns exactly when that model exists, and its two
    predictions are those of the model once trained. *)
Lemma get_solution_trains_model {Rng Trained Pred : Type}
    (train : Rng -> Model F32 EqT float Z -> Trained)
    (predict : Trained -> tensor F32 -> Pred)
    (rng : Rng) (eq : EqT) (poynting_vec : list float)
    (grid_training grid_test : list pyobj) (img_dir : string)
    (training_epochs : option Z) (mode : option string) m :
  get_solution_model to_f32 eq poynting_vec grid_training grid_test
    img_dir training_epochs mode = Ok m ->
  exists g_training g_test,
    get_grid_for_solver to_f32 grid_training = Ok g_training
    /\ get_grid_for_solver to_f32 grid_test = Ok g_test
    /\ get_solution to_f32 train predict rng eq poynting_vec
         grid_training grid_test img_dir training_epochs mode
       = Ok (predict (train rng m) g_training, predict (train rng m) g_test).
Proof.
  intros H.
  destruct (get_solution_model_inv _ _ _ _ _ _ _ _ H)
    as (g1 & g2 & H1 & H2 & Hm).
  exists g1, g2. repeat split; try assumption.
  unfold get_solution. rewrite H1, H2. cbn [mbind result_bind].
  rewrite Hm. reflexivity.
Qed.

Lemma mode_in_network (mode : string) :
  mode = "NN" \/ mode = "autograd" ->
  bool_decide (mode ∈ ({[ "NN"; "autograd" ]} : gset string)) = true.
Proof. intros H. apply bool_decide_eq_true_2. set_solver. Qed.

Lemma mode_not_network (mode : string) :
  mode <> "NN" -> mode <> "autograd" ->
  bool_decide (mode ∈ ({[ "NN"; "autograd" ]} : gset string)) = false.
Proof.
  intros H1 H2. apply bool_decide_eq_false_2.
  rewrite elem_of_union, !elem_of_singleton. tauto.
Qed.
End SolutionFacts.

(** C5: for mode 'NN' or 'autograd' (the default) the model is given the
    network of [get_nn]: input width 1, three hidden linear layers of
    width 100 each followed by tanh, a last linear layer of output width
    1; for mode 'mat' it is given [mat_model(domain, equation)]. *)
Theorem get_solution_approximator
    {F32 : Type} (to_f32 : float -> F32) {EqT : Type}
    (eq : EqT) (poynting_vec : list float)
    (grid_training grid_test : list pyobj) (img_dir : string)
    (training_epochs : option Z) (mode : option string)
    (m : Model F32 EqT float Z) :
  get_solution_model to_f32 eq poynting_vec grid_training grid_test
    img_dir training_epochs mode = Ok m ->
  (default mode_default mode = "NN" \/ default mode_default mode = "autograd"
   -> net m = Sequential get_nn)
  /\ (mode = Some "mat"
      -> net m = mat_model (model_domain m) (model_equation m))
  /\ get_nn = hidden 1 100 ++ hidden 100 100 ++ hidden 100 100
              ++ [Linear 100 1]
  /\ out_features_of get_nn 1 = Some 1.
Proof.
  intros H.
  destruct (get_solution_model_inv to_f32 _ _ _ _ _ _ _ _ H)
    as (g1 & g2 & _ & _ & Hm).
  rewrite solver_model_eq in Hm. injection Hm as <-. cbn [net].
  repeat split.
  - intros Hmode. by rewrite mode_in_network.
  - intros ->. change (default mode_default (Some "mat")) with "mat".
    by rewrite (mode_not_network "mat").
Qed.

Lemma get_solution_approximator_witness :
  exists m : Model float unit float Z,
    get_solution_model (fun x => x) tt [] [PyFloat 0; PyFloat 1]
      [PyFloat 0.5] "img" None (Some "NN") = Ok m
    /\ (default mode_default (Some "NN") = "NN"
        \/ default mode_default (Some "NN") = "autograd"
        -> net m = Sequential get_nn)
    /\ (Some "NN" = Some "mat"
        -> net m = mat_model (model_domain m) (model_equation m))
    /\ get_nn = hidden 1 100 ++ hidden 100 100 ++ hidden 100 100
                ++ [Linear 100 1]
    /\ out_features_of get_nn 1 = Some 1.
Proof.
  eexists. split; [reflexivity|].
  eapply (get_solution_approximator (fun x => x) tt []
            [PyFloat 0; PyFloat 1] [PyFloat 0.5] "img" None (Some "NN")).
  reflexivity.
Defined.

(** C6: every model [get_solution] compiles carries the weights
    lambda_operator = 1 and lambda_bound = 40, whatever the arguments; the
    composed loss is then 1 times the residual term plus 40 times the
    boundary term. *)
Theorem get_solution_loss_weights
    {F32 : Type} (to_f32 : float -> F32) {EqT : Type}
    (eq : EqT) (poynting_vec : list float)
    (grid_training grid_test : list pyobj) (img_dir : string)
    (training_epochs : option Z) (mode : option string)
    (m : Model F32 EqT float Z) :
  get_solution_model to_f32 eq poynting_vec grid_training grid_test
    img_dir training_epochs mode = Ok m ->
  lambda_operator m = 1
  /\ lambda_bound m = 40
  /\ forall residual_loss boundary_loss : float,
       TrainingLoop.compose (lambda_operator m) (lambda_bound m)
         residual_loss boundary_loss
       = (1 * residual_loss + 40 * boundary_loss)%float.
Proof.
  intros H.
  destruct (get_solution_model_inv to_f32 _ _ _ _ _ _ _ _ H)
    as (g1 & g2 & _ & _ & Hm).
  rewrite solver_model_eq in Hm. injection Hm as <-.
  repeat split.
Qed.

Lemma get_solution_loss_weights_witness :
  exists m : Model float unit float Z,
    get_solution_model (fun x => x) tt [] [PyFloat 0; PyFloat 1]
      [PyFloat 0.5] "img" (Some 10) (Some "mat") = Ok m
    /\ lambda_operator m = 1
    /\ lambda_bound m = 40
    /\ forall residual_loss boundary_loss : float,
         TrainingLoop.compose (lambda_operator m) (lambda_bound m)
           residual_loss boundary_loss
         = (1 * residual_loss + 40 * boundary_loss)%float.
Proof.
  eexists. split; [reflexivity|].
  eapply (get_solution_loss_weights (fun x => x) tt []
            [PyFloat 0; PyFloat 1] [PyFloat 0.5] "img" (Some 10)
            (Some "mat")).
  reflexivity.
Defined.

(** C8: two invocations that differ in [poynting_vec] only build the same
    model (domain, boundary conditions, equation, configuration) and
    return the same pair of predictions. *)
Theorem get_solution_ignores_poynting_vec
    {F32 : Type} (to_f32 : float -> F32) {EqT Rng Trained Pred : Type}
    (train : Rng -> Model F32 EqT float Z -> Trained)
    (predict : Trained -> tensor F32 -> Pred)
    (rng : Rng) (eq : EqT) (poynting_vec poynting_vec' : list float)
    (grid_training grid_test : list pyobj) (img_dir : string)
    (training_epochs : option Z) (mode : option string) :
  get_solution_model to_f32 eq poynting_vec grid_training grid_test
    img_dir training_epochs mode
  = get_solution_model to_f32 eq poynting_vec' grid_training grid_test
      img_dir training_epochs mode
  /\ get_solution to_f32 train predict rng eq poynting_vec
       grid_training grid_test img_dir training_epochs mode
     = get_solution to_f32 train predict rng eq poynting_vec'
         grid_training grid_test img_dir training_epochs mode.
Proof. split; reflexivity. Qed.

(** C10: every model [get_solution] builds has exactly one boundary
    condition, the Dirichlet condition y(0.0) = -1, whatever the
    arguments. *)
Theorem get_solution_boundary_hardcoded
    {F32 : Type} (to_f32 : float -> F32) {EqT : Type}
    (eq : EqT) (poynting_vec : list float)
    (grid_training grid_test : list pyobj) (img_dir : string)
    (training_epochs : option Z) (mode : option string)
    (m : Model F32 EqT float Z) :
  get_solution_model to_f32 eq poynting_vec grid_training grid_test
    img_dir training_epochs mode = Ok m ->
  set_boundary [0%float] [-1] None = Ok (conditions m)
  /\ conditions_lst (conditions m) = [Dirichlet {[ "y" := 0%float ]} (-1)]
  /\ length (conditions_lst (conditions m)) = 1%nat.
Proof.
  intros H.
  destruct (get_solution_model_inv to_f32 _ _ _ _ _ _ _ _ H)
    as (g1 & g2 & _ & _ & Hm).
  rewrite solver_model_eq in Hm. injection Hm as <-.
  repeat split.
Qed.

Lemma get_solution_boundary_hardcoded_witness :
  exists m : Model float unit float Z,
    get_solution_model (fun x => x) tt [1%float] [PyFloat 0; PyFloat 1]
      [PyFloat 0.5] "img" None None = Ok m
    /\ set_boundary [0%float] [-1] None = Ok (conditions m)
    /\ conditions_lst (conditions m) = [Dirichlet {[ "y" := 0%float ]} (-1)]
    /\ length (conditions_lst (conditions m)) = 1%nat.
Proof.
  eexists. split; [reflexivity|].
  eapply (get_solution_boundary_hardcoded (fun x => x) tt [1%float]
            [PyFloat 0; PyFloat 1] [PyFloat 0.5] "img" None None).
  reflexivity.
Defined.

(** ** The training loop *)

Section LoopFacts.
Import TrainingLoop.
Context {P : Type}.
Context (residual_loss boundary_loss : P -> float).
Context (optimizer_step : P -> P).
Context (perturb : float -> P -> P).
Context (lambda_operator lambda_bound : Z).
Context (es : EarlyStopping).
Context (training_epochs : Z).

Local Abbreviation loss_at :=
  (TrainingLoop.loss_at residual_loss boundary_loss
     lambda_operator lambda_bound).
Local Abbreviation step :=
  (TrainingLoop.step residual_loss boundary_loss optimizer_step perturb
     lambda_operator lambda_bound es).
Local Abbreviation run :=
  (TrainingLoop.run residual_loss boundary_loss optimizer_step perturb
     lambda_operator lambda_bound es training_epochs).

Lemma should_stop_step_count (s : TrainingState) :
  step_count (should_stop perturb es s).2 = step_count s.
Proof.
  unfold should_stop.
  destruct (PrimFloat.ltb _ _); destruct (bool_decide _); reflexivity.
Qed.

(** A transition that goes through counts one step, on a finite loss,
    and ends RUNNING or STAGNATED. *)
Lemma step_ok (s s' : TrainingState) :
  step s = Ok s' ->
  step_count s' = step_count s + 1
  /\ (state s' = STAGNATED \/ state s' = RUNNING)
  /\ PrimFloat.is_finite (loss_at s) = true.
Proof.
  unfold TrainingLoop.step.
  destruct (PrimFloat.is_finite (loss_at s)) eqn:Hfin; [|discriminate].
  match goal with
  | |- context [should_stop perturb es ?s1] =>
      pose proof (should_stop_step_count s1) as Hc;
      destruct (should_stop perturb es s1) as [stop s2]
  end.
  cbn [snd step_count] in Hc. intros [= <-].
  cbn [halt step_count state]. rewrite Hc.
  repeat split. destruct stop; auto.
Qed.

(** A transition aborts only with OptimizerDivergenceError, on a loss
    that is not finite. *)
Lemma step_raise (s : TrainingState) (e : exn) :
  step s = Raise e ->
  e = Exn "OptimizerDivergenceError"
  /\ PrimFloat.is_finite (loss_at s) = false.
Proof.
  unfold TrainingLoop.step.
  destruct (PrimFloat.is_finite (loss_at s)) eqn:Hfin.
  - destruct (should_stop _ _ _). discriminate.
  - by intros [= <-].
Qed.

Lemma run_terminal (fuel : nat) (s : TrainingState) :
  terminal (state s) = true -> run fuel s = Some (Finished s).
Proof. intros H. destruct fuel; simpl; by rewrite H. Qed.

(** Once the loop has ended, more fuel changes nothing. *)
Lemma run_more (n : nat) : forall (s : TrainingState) (k : nat) out,
  run n s = Some out -> (n <= k)%nat -> run k s = Some out.
Proof.
  induction n as [|n IH]; intros s k out Hn Hk;
    (destruct k as [|k]; [try lia|]); simpl in *;
    destruct (terminal (state s)); try done;
    destruct (bool_decide (step_count s < training_epochs)); try done.
  destruct (step s); [apply IH; [done | lia] | done].
Qed.

(** How a run may end when it started RUNNING with [count] steps. *)
Definition ends_within (count : Z) (out : outcome) : Prop :=
  match out with
  | Finished final =>
      (state final = STAGNATED \/ state final = MAX_EPOCHS_REACHED)
      /\ count <= step_count final <= training_epochs
  | Aborted e last_valid =>
      e = Exn "OptimizerDivergenceError"
      /\ state last_valid = RUNNING
      /\ count <= step_count last_valid < training_epochs
      /\ PrimFloat.is_finite (loss_at last_valid) = false
  end.

Lemma ends_within_mono (count count' : Z) (out : outcome) :
  count <= count' -> ends_within count' out -> ends_within count out.
Proof.
  intros Hle. destruct out as [final | e last]; simpl.
  - intros (Hst & Hc). split; [done | lia].
  - intros (He & Hst & Hc & Hfin). repeat split; try done; lia.
Qed.

(** From a RUNNING state within the bound, fuel for the remaining epochs
    is enough for the loop to end, and it ends within the bound. *)
Lemma run_halts (fuel : nat) : forall s : TrainingState,
  state s = RUNNING ->
  step_count s <= training_epochs ->
  (Z.to_nat (training_epochs - step_count s) <= fuel)%nat ->
  exists out, run fuel s = Some out /\ ends_within (step_count s) out.
Proof.
  induction fuel as [|fuel IH]; intros s Hrun Hle Hfuel;
    simpl; rewrite Hrun; cbn [terminal]; case_bool_decide as Hlt;
    try lia;
    try (eexists; split; [reflexivity|]; simpl; split; [auto | lia]).
  destruct (step s) as [s'|e] eqn:Hs.
  - destruct (step_ok s s' Hs) as (Hc & [Hst | Hst] & _).
    + rewrite run_terminal by (by rewrite Hst).
      eexists; split; [reflexivity|]. simpl. split; [auto | lia].
    + destruct (IH s' Hst) as (out & Hout & Hends); [lia.. |].
      exists out. split; [exact Hout|].
      apply (ends_within_mono _ (step_count s')); [lia | done].
  - destruct (step_raise s e Hs) as (-> & Hfin).
    eexists; split; [reflexivity|]. simpl. repeat split; try done; lia.
Qed.
End LoopFacts.

(** C7 (as stated, refuted), twice. With training_epochs = -1 the loop
    takes no step and halts in MAX_EPOCHS_REACHED with step count 0,
    which exceeds training_epochs. With a loss that is not a number the
    loop aborts on its first step with OptimizerDivergenceError, still
    RUNNING: it never reaches a terminal state. *)
Lemma training_loop_negative_epochs_or_divergence :
  (exists (m : Model float unit float Z)
          (final : TrainingLoop.TrainingState (P := unit)),
     get_solution_model (fun x => x) tt [] [PyFloat 0] [PyFloat 0] "img"
       (Some (-1)) None = Ok m
     /\ (forall fuel,
           TrainingLoop.train (fun _ => 1%float) (fun _ => 0%float)
             (fun p => p) (fun _ p => p) m fuel infinity tt
           = Some (TrainingLoop.Finished final))
     /\ TrainingLoop.state final = TrainingLoop.MAX_EPOCHS_REACHED
     /\ TrainingLoop.step_count final = 0
     /\ epochs m = -1
     /\ ~ TrainingLoop.step_count final <= epochs m)
  /\ (exists (m : Model float unit float Z)
             (last_valid : TrainingLoop.TrainingState (P := unit)),
        get_solution_model (fun x => x) tt [] [PyFloat 0] [PyFloat 0] "img"
          (Some 3) None = Ok m
        /\ (forall fuel, (1 <= fuel)%nat ->
              TrainingLoop.train (fun _ => nan) (fun _ => 0%float)
                (fun p => p) (fun _ p => p) m fuel infinity tt
              = Some (TrainingLoop.Aborted (Exn "OptimizerDivergenceError")
                        last_valid))
        /\ TrainingLoop.terminal (TrainingLoop.state last_valid) = false
        /\ TrainingLoop.step_count last_valid = 0).
Proof.
  split.
  - eexists.
    exists (TrainingLoop.halt TrainingLoop.MAX_EPOCHS_REACHED
              (TrainingLoop.initial infinity tt)).
    split; [reflexivity|]. split; [by intros [|fuel]|].
    repeat split. cbv. intros Hle. by apply Hle.
  - eexists. exists (TrainingLoop.initial infinity tt).
    split; [reflexivity|]. split; [|by split].
    intros [|fuel] Hfuel; [lia|]. by vm_compute.
Qed.

(** C7 (amended): for every invocation with training_epochs >= 0 the
    training loop ends with a step count of at most training_epochs:
    either in exactly one terminal state among CONVERGED,
    MAX_EPOCHS_REACHED and STAGNATED, or, when the loss of a step is not
    finite, aborted at that step with OptimizerDivergenceError. When every
    loss is finite it ends in a terminal state. *)
Theorem training_loop_terminates
    {F32 : Type} (to_f32 : float -> F32) {EqT : Type}
    (eq : EqT) (poynting_vec : list float)
    (grid_training grid_test : list pyobj) (img_dir : string)
    (training_epochs : option Z) (mode : option string)
    (m : Model F32 EqT float Z)
    {P : Type} (residual_loss boundary_loss : P -> float)
    (optimizer_step : P -> P) (perturb : float -> P -> P)
    (best0 : float) (p0 : P) :
  get_solution_model to_f32 eq poynting_vec grid_training grid_test
    img_dir training_epochs mode = Ok m ->
  0 <= default training_epochs_default training_epochs ->
  exists out,
    (forall fuel,
       (Z.to_nat (default training_epochs_default training_epochs)
        <= fuel)%nat ->
       TrainingLoop.train residual_loss boundary_loss optimizer_step
         perturb m fuel best0 p0 = Some out)
    /\ match out with
       | TrainingLoop.Finished final =>
           TrainingLoop.terminal (TrainingLoop.state final) = true
           /\ TrainingLoop.state final
              ∈ [TrainingLoop.CONVERGED; TrainingLoop.MAX_EPOCHS_REACHED;
                 TrainingLoop.STAGNATED]
           /\ 0 <= TrainingLoop.step_count final
              <= default training_epochs_default training_epochs
       | TrainingLoop.Aborted e last_valid =>
           e = Exn "OptimizerDivergenceError"
           /\ 0 <= TrainingLoop.step_count last_valid
              < default training_epochs_default training_epochs
           /\ PrimFloat.is_finite
                (TrainingLoop.compose (lambda_operator m) (lambda_bound m)
                   (residual_loss (TrainingLoop.parameters last_valid))
                   (boundary_loss (TrainingLoop.parameters last_valid)))
              = false
       end
    /\ ((forall p,
           PrimFloat.is_finite
             (TrainingLoop.compose (lambda_operator m) (lambda_bound m)
                (residual_loss p) (boundary_loss p)) = true) ->
        exists final, out = TrainingLoop.Finished final).
Proof.
  intros H Hepochs.
  destruct (get_solution_model_inv to_f32 _ _ _ _ _ _ _ _ H)
    as (g1 & g2 & _ & _ & Hm).
  rewrite solver_model_eq in Hm. injection Hm as <-.
  set (T := default training_epochs_default training_epochs) in *.
  unfold TrainingLoop.train.
  cbn [callbacks TrainingLoop.early_stopping_of mbind option_bind
       lambda_operator lambda_bound epochs].
  match goal with
  | |- context [TrainingLoop.run ?r ?b ?o ?p ?lo ?lb ?es T _ ?init] =>
      destruct (run_halts r b o p lo lb es T (Z.to_nat T) init)
        as (out & Hout & Hends); [reflexivity | cbn; lia | cbn; lia |]
  end.
  cbn [TrainingLoop.initial TrainingLoop.step_count] in Hends.
  exists out. split; [|split].
  - intros fuel Hfuel. cbn. by apply (run_more _ _ _ _ _ _ _ _ (Z.to_nat T)).
  - destruct out as [final | e last]; simpl in Hends.
    + destruct Hends as (Hst & Hc). repeat split; try lia.
      * by destruct Hst as [-> | ->].
      * rewrite !elem_of_cons. destruct Hst as [-> | ->]; auto.
    + destruct Hends as (-> & _ & Hc & Hfin). repeat split; try lia.
      exact Hfin.
  - intros Hall. destruct out as [final | e last]; [by exists final|].
    simpl in Hends. destruct Hends as (_ & _ & _ & Hfin).
    unfold TrainingLoop.loss_at in Hfin. rewrite Hall in Hfin. discriminate.
Qed.

Lemma training_loop_terminates_witness :
  exists (m : Model float unit float Z)
         (out : TrainingLoop.outcome (P := unit)),
    get_solution_model (fun x => x) tt [] [PyFloat 0; PyFloat 0.5; PyFloat 1]
      [PyFloat 0; PyFloat 0.5; PyFloat 1] "img" (Some 10) None = Ok m
    /\ (forall fuel, (10 <= fuel)%nat ->
          TrainingLoop.train (fun _ => 1%float) (fun _ => 0%float)
            (fun p => p) (fun _ p => p) m fuel infinity tt = Some out)
    /\ match out with
       | TrainingLoop.Finished final =>
           TrainingLoop.terminal (TrainingLoop.state final) = true
           /\ TrainingLoop.state final
              ∈ [TrainingLoop.CONVERGED; TrainingLoop.MAX_EPOCHS_REACHED;
                 TrainingLoop.STAGNATED]
           /\ 0 <= TrainingLoop.step_count final <= 10
       | TrainingLoop.Aborted e last_valid =>
           e = Exn "OptimizerDivergenceError"
           /\ 0 <= TrainingLoop.step_count last_valid < 10
           /\ PrimFloat.is_finite
                (TrainingLoop.compose (lambda_operator m) (lambda_bound m)
                   1%float 0%float) = false
       end
    /\ ((forall p : unit,
           PrimFloat.is_finite
             (TrainingLoop.compose (lambda_operator m) (lambda_bound m)
                1%float 0%float) = true) ->
        exists final, out = TrainingLoop.Finished final).
Proof.
  eexists.
  destruct (training_loop_terminates (fun x => x) tt []
              [PyFloat 0; PyFloat 0.5; PyFloat 1]
              [PyFloat 0; PyFloat 0.5; PyFloat 1] "img" (Some 10) None _
              (fun _ : unit => 1%float) (fun _ => 0%float)
              (fun p => p) (fun _ p => p) infinity tt eq_refl)
    as (out & Hout); [simpl; lia|].
  exists out. split; [reflexivity|]. exact Hout.
Defined.

(** * Further properties of the four functions *)

(** ** Helper lemmas *)

Lemma numeric_floats (l : list pyobj) :
  Forall (fun o => is_numeric o = true) l ->
  exists xs : list float, l = PyFloat <$> xs.
Proof.
  induction 1 as [|o l Ho _ (xs & ->)]; [by exists []|].
  destruct o as [x| |]; try discriminate. by exists (x :: xs).
Qed.

Lemma numeric_or_not (l : list pyobj) :
  Forall (fun o => is_numeric o = true) l
  \/ Exists (fun o => is_numeric o = false) l.
Proof.
  induction l as [|o l [IH | IH]].
  - left. constructor.
  - destruct (is_numeric o) eqn:Ho.
    + left. by constructor.
    + right. by apply Exists_cons_hd.
  - right. by apply Exists_cons_tl.
Qed.

Lemma get_grid_for_solver_raises {F32 : Type} (to_f32 : float -> F32)
    (l : list pyobj) :
  Exists (fun o => is_numeric o = false) l ->
  exists e, get_grid_for_solver to_f32 l = Raise e.
Proof.
  intros H. unfold get_grid_for_solver, tensor_of_row.
  destruct (scalars_non_numeric to_f32 l H) as (e & He & _).
  destruct l as [|[x|s|] rest].
  - inversion H.
  - change (sizes_probe (PyFloat x :: rest)) with (Ok ()).
    cbn [mbind result_bind]. rewrite He. by exists e.
  - by exists (Exn "ValueError").
  - change (sizes_probe (PyNone :: rest)) with (Ok ()).
    cbn [mbind result_bind]. rewrite He. by exists e.
Qed.

Lemma get_grid_for_solver_ok_inv {F32 : Type} (to_f32 : float -> F32)
    (l : list pyobj) (grid : tensor F32) :
  get_grid_for_solver to_f32 l = Ok grid ->
  exists xs : list float,
    l = PyFloat <$> xs
    /\ grid = Tensor [Z.of_nat (length xs); 1] (to_f32 <$> xs).
Proof.
  intros H. destruct (numeric_or_not l) as [Hn | Hn].
  - destruct (numeric_floats l Hn) as (xs & ->). exists xs.
    rewrite get_grid_for_solver_floats in H. by injection H as <-.
  - destruct (get_grid_for_solver_raises to_f32 l Hn) as (e & He).
    congruence.
Qed.

Lemma zip3_app {A B C : Type} (la la' : list A) (lb lb' : list B)
    (lc lc' : list C) :
  length la = length lb -> length lb = length lc ->
  zip3 (la ++ la') (lb ++ lb') (lc ++ lc')
  = zip3 la lb lc ++ zip3 la' lb' lc'.
Proof.
  revert lb lc.
  induction la as [|a la IH]; intros [|b lb] [|c lc] Hab Hbc;
    simpl in *; try lia; [done|].
  f_equal. apply IH; lia.
Qed.

Lemma chars_length (s : string) : length (chars s) = String.length s.
Proof. induction s; simpl; congruence. Qed.

Lemma chars_one (s : string) :
  Forall (fun name => exists ch, name = String ch EmptyString) (chars s).
Proof. induction s; constructor; eauto. Qed.

Lemma zip3_names_Forall {A B C : Type} (Q : C -> Prop)
    (la : list A) (lb : list B) (lc : list C) :
  Forall Q lc -> Forall (fun t => Q t.2) (zip3 la lb lc).
Proof.
  intros H. revert la lb.
  induction H as [|c lc Hc _ IH]; intros [|a la] [|b lb]; simpl;
    constructor; auto.
Qed.

Lemma infer_size_flat (n : Z) : 0 <= n -> infer_size [-1] n = Ok [n].
Proof.
  intros Hn. unfold infer_size.
  change (bool_decide (Exists (fun d => d < -1) [-1])) with false.
  change (count_infer [-1]) with 1%nat.
  change (newsize [-1]) with 1.
  cbn [bool_decide decide_rel].
  rewrite Z.mod_1_r, Z.div_1_r.
  rewrite (bool_decide_eq_true_2 (0 = 0)) by done.
  rewrite orb_true_r.
  reflexivity.
Qed.

(** ** get_grid_for_solver, further *)

(** X2: converting the concatenation of two coordinate lists that both
    convert gives the two grids stacked: the rows of the first, then the
    rows of the second. *)
Theorem get_grid_for_solver_app
    {F32 : Type} (to_f32 : float -> F32) (l1 l2 : list pyobj)
    (g1 g2 : tensor F32) :
  get_grid_for_solver to_f32 l1 = Ok g1 ->
  get_grid_for_solver to_f32 l2 = Ok g2 ->
  get_grid_for_solver to_f32 (l1 ++ l2)
  = Ok (Tensor [numel g1 + numel g2; 1] (data g1 ++ data g2)).
Proof.
  intros H1 H2.
  destruct (get_grid_for_solver_ok_inv to_f32 l1 g1 H1) as (xs1 & -> & ->).
  destruct (get_grid_for_solver_ok_inv to_f32 l2 g2 H2) as (xs2 & -> & ->).
  rewrite <- fmap_app, get_grid_for_solver_floats.
  unfold numel. cbn [data]. rewrite fmap_app, length_app, !length_fmap.
  by rewrite Nat2Z.inj_add.
Qed.

Lemma get_grid_for_solver_app_witness :
  get_grid_for_solver (fun x : float => x)
    ([PyFloat 0; PyFloat 0.5] ++ [PyFloat 1])
  = Ok (Tensor [2 + 1; 1] ([0%float; 0.5%float] ++ [1%float])).
Proof.
  apply (get_grid_for_solver_app (fun x : float => x)
           [PyFloat 0; PyFloat 0.5] [PyFloat 1]
           (Tensor [2; 1] [0%float; 0.5%float]) (Tensor [1; 1] [1%float]));
    reflexivity.
Defined.

(** ** set_boundary, further *)

(** X3: on inputs that are concatenations of two aligned parts (the
    first parts of equal length), [set_boundary] installs the conditions
    of the first part followed by the conditions of the second part. *)
Theorem set_boundary_app {A B : Type}
    (args1 args2 : list A) (funcs1 funcs2 : list B)
    (names1 names2 : list string) :
  length args1 = length funcs1 ->
  length funcs1 = length names1 ->
  exists c1 c2 c,
    set_boundary args1 funcs1 (Some (NamesList names1)) = Ok c1
    /\ set_boundary args2 funcs2 (Some (NamesList names2)) = Ok c2
    /\ set_boundary (args1 ++ args2) (funcs1 ++ funcs2)
         (Some (NamesList (names1 ++ names2))) = Ok c
    /\ conditions_lst c = conditions_lst c1 ++ conditions_lst c2.
Proof.
  intros Ha Hf.
  destruct (set_boundary_conditions args1 funcs1 (Some (NamesList names1)))
    as (c1 & Hc1 & Hl1).
  destruct (set_boundary_conditions args2 funcs2 (Some (NamesList names2)))
    as (c2 & Hc2 & Hl2).
  destruct (set_boundary_conditions (args1 ++ args2) (funcs1 ++ funcs2)
              (Some (NamesList (names1 ++ names2)))) as (c & Hc & Hl).
  exists c1, c2, c. repeat split; try assumption.
  rewrite Hl, Hl1, Hl2. simpl.
  by rewrite zip3_app, fmap_app.
Qed.

Lemma set_boundary_app_witness :
  exists c1 c2 c,
    set_boundary [0%float] [-1] (Some (NamesList ["y"])) = Ok c1
    /\ set_boundary [1%float] [2] (Some (NamesList ["z"])) = Ok c2
    /\ set_boundary ([0%float] ++ [1%float]) ([-1] ++ [2])
         (Some (NamesList (["y"] ++ ["z"]))) = Ok c
    /\ conditions_lst c = conditions_lst c1 ++ conditions_lst c2.
Proof.
  apply (set_boundary_app [0%float] [1%float] [-1] [2] ["y"] ["z"]);
    reflexivity.
Defined.

(** X4: when [variable_names] is a string, every installed condition
    binds a one-character variable name, and there are at most as many
    conditions as the string has characters: a name of several characters
    is never bound as a whole. *)
Theorem set_boundary_string_names {A B : Type}
    (arg_values : list A) (func_values : list B) (name : string) :
  exists c,
    set_boundary arg_values func_values (Some (NamesStr name)) = Ok c
    /\ (length (conditions_lst c) <= String.length name)%nat
    /\ Forall (fun cond =>
                 exists ch a f,
                   cond = Dirichlet {[ String ch EmptyString := a ]} f)
              (conditions_lst c).
Proof.
  destruct (set_boundary_conditions arg_values func_values
              (Some (NamesStr name))) as (c & Hc & Hl).
  exists c. split; [exact Hc|]. rewrite Hl. simpl. split.
  - rewrite length_fmap, zip3_length, chars_length. lia.
  - apply Forall_fmap.
    eapply Forall_impl;
      [apply (zip3_names_Forall _ arg_values func_values _ (chars_one name))|].
    intros [[a f] v] (ch & Hv). simpl in *. subst v. by exists ch, a, f.
Qed.

(** X5: when one of the three inputs is empty, [set_boundary] returns
    the empty boundary set, whatever the other two hold. *)
Theorem set_boundary_empty {A B : Type}
    (arg_values : list A) (func_values : list B)
    (variable_names : option names) :
  arg_values = [] \/ func_values = []
  \/ iter_names (default variable_names_default variable_names) = [] ->
  set_boundary arg_values func_values variable_names = Ok (MkConditions []).
Proof.
  intros H. unfold set_boundary.
  assert (Hz : zip3 arg_values func_values
                 (iter_names (default variable_names_default variable_names))
               = []).
  { destruct H as [-> | [-> | ->]]; [done | |].
    - by destruct arg_values.
    - by destruct arg_values, func_values. }
  by rewrite Hz.
Qed.

Lemma set_boundary_empty_witness :
  set_boundary [0%float; 1%float] [-1; 2] (Some (NamesStr ""))
  = Ok (MkConditions []).
Proof.
  apply (set_boundary_empty [0%float; 1%float] [-1; 2] (Some (NamesStr ""))).
  right. right. reflexivity.
Defined.

(** ** get_solution, further *)

(** X6: for a mode other than 'NN' and 'autograd', whatever its
    spelling, the approximator chosen at line 95 is
    [mat_model(domain, equation)] on the training grid, and the mode
    string is handed to [compile] as it came. Whether [compile] then
    accepts the mode is decided inside tedeous and is no part of the
    statement. *)
Theorem get_solution_unknown_mode
    {F32 : Type} (to_f32 : float -> F32) {EqT : Type}
    (eq : EqT) (poynting_vec : list float)
    (grid_training grid_test : list pyobj) (img_dir : string)
    (training_epochs : option Z) (mode : string)
    (m : Model F32 EqT float Z) :
  mode <> "NN" -> mode <> "autograd" ->
  get_solution_model to_f32 eq poynting_vec grid_training grid_test
    img_dir training_epochs (Some mode) = Ok m ->
  exists g_training,
    get_grid_for_solver to_f32 grid_training = Ok g_training
    /\ net m = mat_model [MkVariable "y" g_training None] [eq]
    /\ compile_mode m = mode.
Proof.
  intros Hnn Hauto H.
  destruct (get_solution_model_inv to_f32 _ _ _ _ _ _ _ _ H)
    as (g1 & g2 & Hg1 & _ & Hm).
  rewrite solver_model_eq in Hm. injection Hm as <-.
  exists g1. split; [exact Hg1|]. cbn [net compile_mode].
  change (default mode_default (Some mode)) with mode.
  by rewrite mode_not_network.
Qed.

Lemma get_solution_unknown_mode_witness :
  exists (m : Model float unit float Z) g_training,
    get_solution_model (fun x => x) tt [] [PyFloat 0; PyFloat 1]
      [PyFloat 0.5] "img" None (Some "nn") = Ok m
    /\ get_grid_for_solver (fun x : float => x) [PyFloat 0; PyFloat 1]
       = Ok g_training
    /\ net m = mat_model [MkVariable "y" g_training None] [tt]
    /\ compile_mode m = "nn".
Proof.
  eexists.
  destruct (get_solution_unknown_mode (fun x : float => x) tt []
              [PyFloat 0; PyFloat 1] [PyFloat 0.5] "img" None "nn" _
              ltac:(discriminate) ltac:(discriminate) eq_refl)
    as (g & Hg).
  exists g. split; [reflexivity | exact Hg].
Defined.

(** X8: the training grid is converted first and the test grid second,
    both before any solver object exists. A training grid that fails makes
    [get_solution] raise that very exception, whatever the test grid; a
    test grid that fails after a good training grid makes it raise the
    test grid's exception; in both cases no model is built or trained. *)
Theorem get_solution_first_failure
    {F32 : Type} (to_f32 : float -> F32) {EqT Rng Trained Pred : Type}
    (train : Rng -> Model F32 EqT float Z -> Trained)
    (predict : Trained -> tensor F32 -> Pred)
    (rng : Rng) (eq : EqT) (poynting_vec : list float)
    (grid_training grid_test : list pyobj) (img_dir : string)
    (training_epochs : option Z) (mode : option string) (e : exn) :
  (get_grid_for_solver to_f32 grid_training = Raise e
   \/ (Forall (fun o => is_numeric o = true) grid_training
       /\ get_grid_for_solver to_f32 grid_test = Raise e)) ->
  get_solution to_f32 train predict rng eq poynting_vec
    grid_training grid_test img_dir training_epochs mode = Raise e
  /\ get_solution_model to_f32 eq poynting_vec
       grid_training grid_test img_dir training_epochs mode = Raise e.
Proof.
  unfold get_solution, get_solution_model.
  intros [H1 | [H1 H2]].
  - by rewrite H1.
  - destruct (numeric_floats _ H1) as (xs1 & ->).
    rewrite get_grid_for_solver_floats. cbn [mbind result_bind].
    by rewrite H2.
Qed.

Lemma get_solution_first_failure_witness :
  get_solution (fun x : float => x)
    (fun (_ : unit) (_ : Model float unit float Z) => tt)
    (fun (_ : unit) (t : tensor float) => data t)
    tt tt [] [PyFloat 0; PyStr "a"] [PyNone] "img" None None
  = Raise (Exn "TypeError")
  /\ get_solution_model (fun x : float => x) tt []
       [PyFloat 0; PyStr "a"] [PyNone] "img" None None
     = Raise (Exn "TypeError").
Proof.
  apply (get_solution_first_failure (fun x : float => x)
           (fun (_ : unit) (_ : Model float unit float Z) => tt)
           (fun (_ : unit) (t : tensor float) => data t)
           tt tt [] [PyFloat 0; PyStr "a"] [PyNone] "img" None None
           (Exn "TypeError")).
  left. reflexivity.
Defined.

(** X9: the model that is trained does not depend on the values of the
    test grid: for float grids, two invocations that differ in the test
    grid only build the same model, whose domain is the single variable
    'y' over the column of the training coordinates. *)
Theorem get_solution_model_ignores_test_grid
    {F32 : Type} (to_f32 : float -> F32) {EqT : Type}
    (eq : EqT) (poynting_vec : list float)
    (grid_training grid_test grid_test' : list float) (img_dir : string)
    (training_epochs : option Z) (mode : option string) :
  exists m,
    get_solution_model to_f32 eq poynting_vec (PyFloat <$> grid_training)
      (PyFloat <$> grid_test) img_dir training_epochs mode = Ok m
    /\ get_solution_model to_f32 eq poynting_vec (PyFloat <$> grid_training)
         (PyFloat <$> grid_test') img_dir training_epochs mode = Ok m
    /\ model_domain m
       = [MkVariable "y"
            (Tensor [Z.of_nat (length grid_training); 1]
                    (to_f32 <$> grid_training))
            None].
Proof.
  unfold get_solution_model.
  rewrite !get_grid_for_solver_floats. cbn [mbind result_bind].
  rewrite solver_model_eq. eexists. repeat split.
Qed.

(** X10: the network of [get_nn] accepts every grid that
    [get_grid_for_solver] returns: the layer widths chain from the
    grid's single column, the output has one row per coordinate and one
    column, and flattening it with [reshape(-1)] gives as many values as
    there were coordinates. *)
Theorem get_nn_accepts_grid
    {F32 : Type} (to_f32 : float -> F32) (arg0 : list pyobj)
    (grid : tensor F32) :
  get_grid_for_solver to_f32 arg0 = Ok grid ->
  exists out_shape,
    forward_shape get_nn (shape grid) = Some out_shape
    /\ out_shape = [Z.of_nat (length arg0); 1]
    /\ infer_size [-1] (foldr Z.mul 1 out_shape)
       = Ok [Z.of_nat (length arg0)].
Proof.
  intros H.
  destruct (get_grid_for_solver_ok_inv to_f32 arg0 grid H) as (xs & -> & ->).
  rewrite length_fmap. cbn [shape].
  exists [Z.of_nat (length xs); 1]. repeat split.
  cbn [foldr]. rewrite Z.mul_1_r. apply infer_size_flat. lia.
Qed.

Lemma get_nn_accepts_grid_witness :
  exists out_shape,
    forward_shape get_nn (shape (Tensor [3; 1] [0%float; 0.5%float; 1%float]))
    = Some out_shape
    /\ out_shape = [3; 1]
    /\ infer_size [-1] (foldr Z.mul 1 out_shape) = Ok [3].
Proof.
  apply (get_nn_accepts_grid (fun x : float => x)
           [PyFloat 0; PyFloat 0.5; PyFloat 1]
           (Tensor [3; 1] [0%float; 0.5%float; 1%float])).
  reflexivity.
Defined.
